(** Shallow embedding of the agent turn loop of app.py (LangGraph SQL agent):
    the graph nodes [model], [tools_router] and [tool_node], and the SSE
    projection done by [generate_chat_responses]. *)

From Stdlib Require Import String List Bool ZArith Lia.
Import ListNotations.
Open Scope string_scope.

(** * Data model *)

(** A LangChain tool call: [{"name": ..., "args": {...}, "id": ...}].
    The argument dict is an association list of string keys to string values. *)
Record ToolCall := mkToolCall {
  tc_name : string;
  tc_args : list (string * string);
  tc_id : string
}.

(** langchain_core messages used by the graph. *)
Inductive Message :=
| SystemMessage (content : string)
| HumanMessage (content : string)
| AIMessage (content : string) (tool_calls : list ToolCall)
| ToolMessage (content : string) (tool_call_id : string) (name : string).

(** Python [dict.get(key, default)] on the argument dict. *)
Fixpoint dict_get (d : list (string * string)) (k default : string) : string :=
  match d with
  | [] => default
  | (k', v) :: d' => if String.eqb k k' then v else dict_get d' k default
  end.

(** * Tools (sql.py) *)

(** Outcome of [await tool.ainvoke(...)]: a returned value (the SQL tools
    return strings) or a raised exception, carried by its [str(e)]. *)
Inductive ToolOutcome :=
| Returned (s : string)
| Raised (e : string).

(** The two SQL tools of sql.py, against one fixed database:
    [list_tables_tool.ainvoke({})] and [query_sql_tool.ainvoke(args)]. *)
Record Tools := mkTools {
  list_tables_tool : ToolOutcome;
  query_sql_tool : list (string * string) -> ToolOutcome
}.

(** * Graph nodes (app.py) *)

Inductive Node := MODEL | TOOL_NODE | END.

(** [tools_router]: inspect [state["messages"][-1]]. Only AI messages have
    a [tool_calls] attribute. *)
Definition tools_router (messages : list Message) : Node :=
  match last messages (HumanMessage "") with
  | AIMessage _ tcs => if Nat.ltb 0 (length tcs) then TOOL_NODE else END
  | _ => END
  end.

(** The body of the [try] in [tool_node] for one tool call: the result
    bound to [result], exceptions turned into the error string. *)
Definition run_tool (T : Tools) (tool_call : ToolCall) : string :=
  let tool_name := tc_name tool_call in
  let tool_args := tc_args tool_call in
  let outcome :=
    if String.eqb tool_name "sql_db_list_tables" then list_tables_tool T
    else if String.eqb tool_name "sql_db_query" then query_sql_tool T tool_args
    else Returned ("Error: Unknown tool " ++ tool_name) in
  match outcome with
  | Returned r => r
  | Raised e => "Error executing tool: " ++ e
  end.

(** One loop iteration: [ToolMessage(content=str(result), tool_call_id=tool_id, name=tool_name)]. *)
Definition tool_message (T : Tools) (tool_call : ToolCall) : Message :=
  ToolMessage (run_tool T tool_call) (tc_id tool_call) (tc_name tool_call).

(** Tool calls of the last message ([state["messages"][-1].tool_calls]). *)
Definition last_tool_calls (messages : list Message) : list ToolCall :=
  match last messages (HumanMessage "") with
  | AIMessage _ tcs => tcs
  | _ => []
  end.

(** [tool_node]: the sequential [for] loop returning [{"messages": tool_messages}]. *)
Definition tool_node (T : Tools) (messages : list Message) : list Message :=
  map (tool_message T) (last_tool_calls messages).

(** [add_messages] reducer: new messages (without ids) are appended. *)
Definition add_messages (left right : list Message) : list Message := left ++ right.

(** Graph execution state: the node to run next and [state["messages"]]. *)
Record GState := mkGState { node : Node; messages : list Message }.

(** One super-step of the compiled graph. The LLM is an oracle from the
    history to the assistant message ([llm_with_tools.ainvoke]); the edge
    [tool_node -> model] is unconditional, the edge out of [model] is
    [tools_router]. *)
Definition graph_step (llm : list Message -> Message) (T : Tools) (s : GState) : GState :=
  match node s with
  | MODEL =>
      let h := add_messages (messages s) [llm (messages s)] in
      mkGState (tools_router h) h
  | TOOL_NODE =>
      mkGState MODEL (add_messages (messages s) (tool_node T (messages s)))
  | END => s
  end.

(** * Event projection ([generate_chat_responses]) *)

(** The [astream_events(version="v2")] events the projector looks at;
    every other event kind is [OtherEvent]. *)
Inductive Event :=
| OnChatModelStream (chunk_content : string)
| OnChatModelEnd (output : Message)
| OnToolEnd (name : string) (output : string)
| OtherEvent (event_type : string).

(** The async iterator of events: it ends, or it raises (e.g. the inference
    call fails), or it yields one more event. *)
Inductive EventStream :=
| SEnd
| SRaise
| SCons (e : Event) (rest : EventStream).

(** The SSE payloads ([json.dumps] of a dict with a ["type"] field). *)
Inductive Notification :=
| NCheckpoint (checkpoint_id : string)
| NContent (content : string)
| NSqlQueryStart (query : string)
| NSqlQueryResult (result : string)
| NEnd.

Definition notification_type (n : Notification) : string :=
  match n with
  | NCheckpoint _ => "checkpoint"
  | NContent _ => "content"
  | NSqlQueryStart _ => "sql_query_start"
  | NSqlQueryResult _ => "sql_query_result"
  | NEnd => "end"
  end.

(** [tool_calls if hasattr(output, "tool_calls") else []]. *)
Definition output_tool_calls (m : Message) : list ToolCall :=
  match m with
  | AIMessage _ tcs => tcs
  | _ => []
  end.

(** The body of [async for event in events]. *)
Definition project_event (e : Event) : list Notification :=
  match e with
  | OnChatModelStream c =>
      if String.eqb c "" then [] else [NContent c]
  | OnChatModelEnd out =>
      let sql_query_calls :=
        filter (fun call => String.eqb (tc_name call) "sql_db_query")
               (output_tool_calls out) in
      match sql_query_calls with
      | [] => []
      | call :: _ => [NSqlQueryStart (dict_get (tc_args call) "query" "")]
      end
  | OnToolEnd name output =>
      if String.eqb name "sql_db_query" then [NSqlQueryResult output] else []
  | OtherEvent _ => []
  end.

(** How the generator finishes: normally, or by propagating an exception. *)
Inductive GenEnd := GenReturned | GenRaised.

(** The [async for] loop followed by the final [yield] of the ["end"] event.
    An exception raised by the event iterator propagates out of the loop,
    so nothing after it is yielded. *)
Fixpoint stream_loop (s : EventStream) : list Notification * GenEnd :=
  match s with
  | SEnd => ([NEnd], GenReturned)
  | SRaise => ([], GenRaised)
  | SCons e rest =>
      let (ns, fin) := stream_loop rest in ((project_event e ++ ns)%list, fin)
  end.

Definition SYSTEM_PROMPT : string :=
  "You are a helpful AI assistant that interacts with a SQL database. " ++
  "The database is named 'company.db' and contains a table named 'Employees'. " ++
  "The 'Employees' table has the following columns: id (INTEGER, PRIMARY KEY), Name (TEXT), Age (INTEGER), " ++
  "Department (TEXT), Salary (REAL), Mobile (TEXT), Email (TEXT). " ++
  "Given a user's question, you must first decide if you need to query the database. " ++
  "If you need to query, you can use `sql_db_list_tables` to see tables, and then `sql_db_query` to get the answer. " ++
  "You must generate the SQL query yourself. Only query the columns necessary to answer the question. " ++
  "After you receive the SQL result, you must answer the user's original question in plain, natural language. " ++
  "If the question is not about the database, answer it as a general AI assistant.".

(** The thread id put in [config] and the graph input, for a request with
    optional [checkpoint_id]; [new_uuid] is [str(uuid4())]. *)
Definition turn_input (message : string) (checkpoint_id : option string)
    (new_uuid : string) : string * list Message :=
  match checkpoint_id with
  | None => (new_uuid, [SystemMessage SYSTEM_PROMPT; HumanMessage message])
  | Some cid => (cid, [HumanMessage message])
  end.

(** [generate_chat_responses]: the yielded notifications and how the
    generator finishes, given the event stream of the graph run. *)
Definition generate_chat_responses (message : string) (checkpoint_id : option string)
    (new_uuid : string) (events : EventStream) : list Notification * GenEnd :=
  let is_new_conversation := match checkpoint_id with None => true | Some _ => false end in
  let prefix := if is_new_conversation then [NCheckpoint new_uuid] else [] in
  let (ns, fin) := stream_loop events in ((prefix ++ ns)%list, fin).

Definition is_end (n : Notification) : bool :=
  match n with NEnd => true | _ => false end.

Definition is_checkpoint (n : Notification) : bool :=
  match n with NCheckpoint _ => true | _ => false end.

Definition is_sql_query_start (n : Notification) : bool :=
  match n with NSqlQueryStart _ => true | _ => false end.

(** A notification sequence with exactly one ["end"], in last position. *)
Definition ends_once_last (ns : list Notification) : Prop :=
  exists pre, ns = (pre ++ [NEnd])%list /\ forallb (fun n => negb (is_end n)) pre = true.

(** Key [(tool_call_id, name)] of a tool-result message. *)
Definition tool_result_key (m : Message) : option (string * string) :=
  match m with
  | ToolMessage _ id name => Some (id, name)
  | _ => None
  end.

(** Whether [tool_node] dispatches the name to one of the two SQL tools. *)
Definition known_tool (name : string) : bool :=
  String.eqb name "sql_db_list_tables" || String.eqb name "sql_db_query".

(** The outcome of the dispatched tool for a known tool name. *)
Definition invoke_known_tool (T : Tools) (tool_call : ToolCall) : ToolOutcome :=
  if String.eqb (tc_name tool_call) "sql_db_list_tables" then list_tables_tool T
  else query_sql_tool T (tc_args tool_call).

(** * Running a turn: the compiled graph and its [MemorySaver] *)

(** [graph.astream_events] drives [graph_step] until the graph reaches
    [END]; LangGraph stops with [GraphRecursionError] once its recursion
    limit of super-steps is used up (the boolean is [true] when [END] was
    reached). *)
Fixpoint run_graph (recursion_limit : nat) (llm : list Message -> Message) (T : Tools)
    (s : GState) : GState * bool :=
  match node s with
  | END => (s, true)
  | _ =>
      match recursion_limit with
      | 0 => (s, false)
      | S n => run_graph n llm T (graph_step llm T s)
      end
  end.

(** [MemorySaver]: the latest [messages] channel per [thread_id]. *)
Definition Store := list (string * list Message).

(** The stored history of a thread; a thread never seen has none. *)
Fixpoint memory_get (store : Store) (thread_id : string) : list Message :=
  match store with
  | [] => []
  | (t, h) :: store' => if String.eqb t thread_id then h else memory_get store' thread_id
  end.

(** Saving a checkpoint: the newest entry shadows the older ones. *)
Definition memory_put (store : Store) (thread_id : string) (h : list Message) : Store :=
  (thread_id, h) :: store.

(** The history the first [model] call of a turn reads: the thread's stored
    messages with [input_messages] added by the [add_messages] reducer. *)
Definition turn_history (store : Store) (message : string) (checkpoint_id : option string)
    (new_uuid : string) : list Message :=
  let (thread_id, input_messages) := turn_input message checkpoint_id new_uuid in
  add_messages (memory_get store thread_id) input_messages.

(** A whole turn of [generate_chat_responses] on the graph: the run from
    [model] on [turn_history], its last state checkpointed under the
    thread id; the boolean is [true] when the run reached [END]. *)
Definition chat_turn (recursion_limit : nat) (llm : list Message -> Message) (T : Tools)
    (store : Store) (message : string) (checkpoint_id : option string)
    (new_uuid : string) : Store * bool :=
  let thread_id := fst (turn_input message checkpoint_id new_uuid) in
  let (s, finished) :=
    run_graph recursion_limit llm T
      (mkGState MODEL (turn_history store message checkpoint_id new_uuid)) in
  (memory_put store thread_id (messages s), finished).

(** Text of the ["content"] notifications, concatenated. *)
Fixpoint content_text (ns : list Notification) : string :=
  match ns with
  | [] => ""
  | NContent c :: ns' => c ++ content_text ns'
  | _ :: ns' => content_text ns'
  end.

(** Text of the streamed model chunks, concatenated. *)
Fixpoint chunk_text (s : EventStream) : string :=
  match s with
  | SCons (OnChatModelStream c) rest => c ++ chunk_text rest
  | SCons _ rest => chunk_text rest
  | _ => ""
  end.

(** Payloads of the ["sql_query_result"] notifications, in order. *)
Fixpoint query_results (ns : list Notification) : list string :=
  match ns with
  | [] => []
  | NSqlQueryResult r :: ns' => r :: query_results ns'
  | _ :: ns' => query_results ns'
  end.

(** Outputs of the query tool's tool-end events, in order. *)
Fixpoint query_tool_outputs (s : EventStream) : list string :=
  match s with
  | SCons (OnToolEnd name output) rest =>
      if String.eqb name "sql_db_query" then output :: query_tool_outputs rest
      else query_tool_outputs rest
  | SCons _ rest => query_tool_outputs rest
  | _ => []
  end.

(** * Database setup ([setup_database] of sql.py) *)

(** A row of [Employees]; [Salary] is REAL, the sample salaries are whole. *)
Record Employee := mkEmployee {
  emp_id : nat;
  emp_name : string;
  emp_age : Z;
  emp_department : string;
  emp_salary : Z;
  emp_mobile : string;
  emp_email : string
}.

(** The file [company.db]: the [Employees] table if it exists, and its
    [sqlite_sequence] counter (the largest id ever handed out by
    AUTOINCREMENT). *)
Record CompanyDB := mkCompanyDB {
  employees_table : option (list Employee);
  sqlite_sequence : nat
}.

(** [(Name, Age, Department, Salary, Mobile, Email)] of an insert. *)
Definition SampleRow : Type := string * Z * string * Z * string * string.

Definition sample_data : list SampleRow :=
  [("Alice Smith", 30%Z, "Engineering", 90000%Z, "555-0101", "alice@example.com");
   ("Bob Johnson", 45%Z, "Sales", 75000%Z, "555-0102", "bob@example.com");
   ("Charlie Lee", 28%Z, "Marketing", 68000%Z, "555-0103", "charlie@example.com");
   ("David Brown", 52%Z, "Engineering", 120000%Z, "555-0104", "david@example.com");
   ("Eve Davis", 35%Z, "Sales", 82000%Z, "555-0105", "eve@example.com");
   ("Frank White", 41%Z, "HR", 72000%Z, "555-0106", "frank@example.com")].

Fixpoint max_id (rows : list Employee) : nat :=
  match rows with
  | [] => 0
  | r :: rows' => Nat.max (emp_id r) (max_id rows')
  end.

(** One [INSERT] into an AUTOINCREMENT table: the new id is one more than
    both the largest id in the table and [sqlite_sequence]. *)
Definition insert_employee (rows : list Employee) (seq : nat) (v : SampleRow)
    : list Employee * nat :=
  let '(name, age, dept, salary, mobile, email) := v in
  let id := S (Nat.max seq (max_id rows)) in
  ((rows ++ [mkEmployee id name age dept salary mobile email])%list, id).

(** [cursor.executemany(INSERT ..., data)]. *)
Fixpoint executemany (rows : list Employee) (seq : nat) (data : list SampleRow)
    : list Employee * nat :=
  match data with
  | [] => (rows, seq)
  | v :: data' =>
      let (rows', seq') := insert_employee rows seq v in executemany rows' seq' data'
  end.

(** [setup_database]: [CREATE TABLE IF NOT EXISTS], then populate when
    the row count is 0. *)
Definition setup_database (db : CompanyDB) : CompanyDB :=
  let rows := match employees_table db with None => [] | Some rs => rs end in
  if Nat.eqb (length rows) 0 then
    let (rows', seq') := executemany rows (sqlite_sequence db) sample_data in
    mkCompanyDB (Some rows') seq'
  else mkCompanyDB (Some rows) (sqlite_sequence db).

Definition sample_name (v : SampleRow) : string :=
  let '(name, _, _, _, _, _) := v in name.

Example project_content_ex :
  project_event (OnChatModelStream "hi") = [NContent "hi"].
Proof. reflexivity. Qed.

Example generate_ex :
  generate_chat_responses "q" None "u1"
    (SCons (OnChatModelStream "") (SCons (OnToolEnd "sql_db_query" "[(1,)]") SEnd))
  = ([NCheckpoint "u1"; NSqlQueryResult "[(1,)]"; NEnd], GenReturned).
Proof. reflexivity. Qed.

(** * Projection lemmas *)

Lemma project_event_no_end (e : Event) :
  forallb (fun n => negb (is_end n)) (project_event e) = true.
Proof.
  destruct e as [c|out|name output|t]; simpl.
  - destruct (String.eqb c ""); reflexivity.
  - destruct (filter _ _); reflexivity.
  - destruct (String.eqb name "sql_db_query"); reflexivity.
  - reflexivity.
Qed.

Lemma project_event_no_checkpoint (e : Event) :
  forallb (fun n => negb (is_checkpoint n)) (project_event e) = true.
Proof.
  destruct e as [c|out|name output|t]; simpl.
  - destruct (String.eqb c ""); reflexivity.
  - destruct (filter _ _); reflexivity.
  - destruct (String.eqb name "sql_db_query"); reflexivity.
  - reflexivity.
Qed.

Lemma stream_loop_end (s : EventStream) :
  match stream_loop s with
  | (ns, GenReturned) => ends_once_last ns
  | (ns, GenRaised) => forallb (fun n => negb (is_end n)) ns = true
  end.
Proof.
  induction s as [| |e rest IH]; simpl.
  - exists []. split; reflexivity.
  - reflexivity.
  - destruct (stream_loop rest) as [ns fin]. destruct fin.
    + destruct IH as [pre [Hns Hpre]]. subst ns.
      exists (project_event e ++ pre)%list. split.
      * rewrite app_assoc. reflexivity.
      * rewrite forallb_app, project_event_no_end, Hpre. reflexivity.
    + rewrite forallb_app, project_event_no_end, IH. reflexivity.
Qed.

Lemma stream_loop_no_checkpoint (s : EventStream) :
  forallb (fun n => negb (is_checkpoint n)) (fst (stream_loop s)) = true.
Proof.
  induction s as [| |e rest IH]; simpl; try reflexivity.
  destruct (stream_loop rest) as [ns fin]. simpl in *.
  rewrite forallb_app, project_event_no_checkpoint, IH. reflexivity.
Qed.

(** C1 (as stated, refuted): a turn whose event iterator raises (the
    inference call fails) yields the ["checkpoint"] notification and then
    stops, with no ["end"] notification at all. *)
Lemma C1_raising_stream_has_no_end :
  generate_chat_responses "List all employees." None "u1" SRaise
    = ([NCheckpoint "u1"], GenRaised)
  /\ ~ ends_once_last (fst (generate_chat_responses "List all employees." None "u1" SRaise)).
Proof.
  split; [reflexivity|].
  simpl. intros [pre [Hns _]].
  destruct pre as [|n [|n' pre]]; simpl in Hns; discriminate.
Qed.

(** C1 (amended): when the graph's event stream finishes without raising,
    the yielded notifications contain exactly one ["end"], as the last
    element; when the event stream raises, no ["end"] is yielded. *)
Theorem generate_end_exactly_once_last (message : string) (checkpoint_id : option string)
    (new_uuid : string) (events : EventStream) :
  match generate_chat_responses message checkpoint_id new_uuid events with
  | (ns, GenReturned) => ends_once_last ns
  | (ns, GenRaised) => forallb (fun n => negb (is_end n)) ns = true
  end.
Proof.
  unfold generate_chat_responses.
  pose proof (stream_loop_end events) as H.
  destruct (stream_loop events) as [ns fin].
  destruct fin.
  - destruct H as [pre [Hns Hpre]]. subst ns.
    exists ((if match checkpoint_id with None => true | Some _ => false end
             then [NCheckpoint new_uuid] else []) ++ pre)%list.
    split.
    + rewrite app_assoc. reflexivity.
    + rewrite forallb_app, Hpre. destruct checkpoint_id; reflexivity.
  - rewrite forallb_app, H. destruct checkpoint_id; reflexivity.
Qed.

(** C2: a new conversation (no [checkpoint_id]) first yields a
    ["checkpoint"] notification carrying the fresh [uuid4] string, which
    is also the thread id of the run; a resumed conversation never
    yields a ["checkpoint"] notification. *)
Theorem checkpoint_first_iff_new (message new_uuid : string) (events : EventStream) :
  (exists rest, fst (generate_chat_responses message None new_uuid events)
                = NCheckpoint new_uuid :: rest)
  /\ fst (turn_input message None new_uuid) = new_uuid
  /\ (forall cid, forallb (fun n => negb (is_checkpoint n))
                     (fst (generate_chat_responses message (Some cid) new_uuid events)) = true).
Proof.
  unfold generate_chat_responses.
  pose proof (stream_loop_no_checkpoint events) as H.
  destruct (stream_loop events) as [ns fin]. simpl in *.
  split; [eexists; reflexivity|]. split; [reflexivity|].
  intros cid. exact H.
Qed.

(** C7: a model-token event yields a ["content"] notification with the
    fragment verbatim exactly when the fragment is non-empty, and nothing
    when it is empty. *)
Theorem content_iff_nonempty (c : string) :
  (project_event (OnChatModelStream c) = [NContent c] <-> c <> "")
  /\ (project_event (OnChatModelStream c) = [] <-> c = "").
Proof.
  simpl. destruct (String.eqb_spec c "") as [E|E].
  - subst. split; split; intro H; try discriminate; try congruence; reflexivity.
  - split; split; intro H; try discriminate; try congruence; reflexivity.
Qed.

(** C8: a tool-end event of the query tool yields one ["sql_query_result"]
    notification carrying the tool output unchanged. *)
Theorem sql_query_result_raw (output : string) :
  project_event (OnToolEnd "sql_db_query" output) = [NSqlQueryResult output].
Proof. reflexivity. Qed.

(** * Graph lemmas *)

Lemma last_tool_calls_snoc (h : list Message) (m : Message) :
  last_tool_calls (h ++ [m])%list = output_tool_calls m.
Proof. unfold last_tool_calls. rewrite last_last. destruct m; reflexivity. Qed.

Lemma tools_router_snoc (h : list Message) (m : Message) :
  tools_router (h ++ [m])%list
  = if Nat.ltb 0 (length (output_tool_calls m)) then TOOL_NODE else END.
Proof. unfold tools_router. rewrite last_last. destruct m; reflexivity. Qed.

Lemma tool_messages_tagged (T : Tools) (calls : list ToolCall) :
  Forall2 (fun call tm => exists content, tm = ToolMessage content (tc_id call) (tc_name call))
    calls (map (tool_message T) calls).
Proof.
  induction calls as [|call calls IH]; simpl; constructor; [|exact IH].
  exists (run_tool T call). reflexivity.
Qed.

(** C3: after a [model] step, the graph either stops (and the assistant
    message has no tool calls) or runs [tool_node], which appends, right
    after the assistant message, one tool-result message per tool call,
    tagged with that call's id and name, and then returns to [model],
    which reads this extended history. *)
Theorem tool_results_before_next_model (llm : list Message -> Message) (T : Tools)
    (h : list Message) :
  let m := llm h in
  let s1 := graph_step llm T (mkGState MODEL h) in
  match node s1 with
  | TOOL_NODE =>
      let s2 := graph_step llm T s1 in
      node s2 = MODEL
      /\ exists tms, messages s2 = (h ++ [m] ++ tms)%list
         /\ length tms = length (output_tool_calls m)
         /\ Forall2 (fun call tm => exists content,
                       tm = ToolMessage content (tc_id call) (tc_name call))
                    (output_tool_calls m) tms
  | END => output_tool_calls m = []
  | MODEL => False
  end.
Proof.
  cbn zeta.
  assert (Hs1 : graph_step llm T (mkGState MODEL h)
                = mkGState (tools_router (h ++ [llm h])%list) (h ++ [llm h])%list)
    by reflexivity.
  rewrite Hs1, tools_router_snoc.
  destruct (Nat.ltb 0 (length (output_tool_calls (llm h)))) eqn:E; simpl.
  - split; [reflexivity|].
    exists (tool_node T (h ++ [llm h])%list).
    unfold add_messages, tool_node. rewrite last_tool_calls_snoc.
    split; [rewrite <- app_assoc; reflexivity|].
    split; [apply length_map|apply tool_messages_tagged].
  - destruct (output_tool_calls (llm h)); [reflexivity|discriminate].
Qed.

(** C4: running [tool_node] always moves on to [model] with one result per
    call; each result is the "Error: Unknown tool" string for an unknown
    tool name, the "Error executing tool: " string for a tool that raised,
    and the tool's return value otherwise. *)
Theorem tool_failures_recovered (llm : list Message -> Message) (T : Tools)
    (h : list Message) :
  graph_step llm T (mkGState TOOL_NODE h)
    = mkGState MODEL (h ++ map (tool_message T) (last_tool_calls h))%list
  /\ Forall (fun call =>
       (known_tool (tc_name call) = false
        /\ run_tool T call = "Error: Unknown tool " ++ tc_name call)
       \/ (exists e, known_tool (tc_name call) = true
                     /\ invoke_known_tool T call = Raised e
                     /\ run_tool T call = "Error executing tool: " ++ e)
       \/ (exists r, known_tool (tc_name call) = true
                     /\ invoke_known_tool T call = Returned r
                     /\ run_tool T call = r))
     (last_tool_calls h).
Proof.
  split; [reflexivity|].
  apply Forall_forall. intros call _.
  unfold run_tool, known_tool, invoke_known_tool.
  destruct (String.eqb (tc_name call) "sql_db_list_tables");
    [|destruct (String.eqb (tc_name call) "sql_db_query")]; simpl.
  - destruct (list_tables_tool T) as [r|e]; right; [right|left]; eexists; eauto.
  - destruct (query_sql_tool T (tc_args call)) as [r|e]; right; [right|left]; eexists; eauto.
  - left. split; reflexivity.
Qed.

(** C5: an assistant message whose tool calls include query-tool calls
    yields exactly one ["sql_query_start"], carrying the ["query"] argument
    (default "") of the first query-tool call only. *)
Theorem sql_query_start_first_only (c : string) (calls : list ToolCall)
    (call : ToolCall) (rest : list ToolCall)
    (Hq : filter (fun tc => String.eqb (tc_name tc) "sql_db_query") calls = call :: rest) :
  project_event (OnChatModelEnd (AIMessage c calls))
    = [NSqlQueryStart (dict_get (tc_args call) "query" "")].
Proof. simpl. rewrite Hq. reflexivity. Qed.

Lemma sql_query_start_first_only_witness :
  filter (fun tc => String.eqb (tc_name tc) "sql_db_query")
    [mkToolCall "sql_db_query" [("query", "SELECT 1")] "a";
     mkToolCall "sql_db_list_tables" [] "b";
     mkToolCall "sql_db_query" [("query", "SELECT 2")] "c"]
  = [mkToolCall "sql_db_query" [("query", "SELECT 1")] "a";
     mkToolCall "sql_db_query" [("query", "SELECT 2")] "c"]
  /\ project_event (OnChatModelEnd (AIMessage ""
       [mkToolCall "sql_db_query" [("query", "SELECT 1")] "a";
        mkToolCall "sql_db_list_tables" [] "b";
        mkToolCall "sql_db_query" [("query", "SELECT 2")] "c"]))
     = [NSqlQueryStart "SELECT 1"].
Proof.
  split; [reflexivity|].
  exact (sql_query_start_first_only ""
    [mkToolCall "sql_db_query" [("query", "SELECT 1")] "a";
     mkToolCall "sql_db_list_tables" [] "b";
     mkToolCall "sql_db_query" [("query", "SELECT 2")] "c"]
    (mkToolCall "sql_db_query" [("query", "SELECT 1")] "a")
    [mkToolCall "sql_db_query" [("query", "SELECT 2")] "c"] eq_refl).
Defined.

(** C6: after a [model] step the last message is the model's output and
    the router goes to [tool_node] exactly when it carries one or more
    tool calls, and to [END] otherwise. *)
Theorem router_after_model (llm : list Message -> Message) (T : Tools) (h : list Message) :
  let s1 := graph_step llm T (mkGState MODEL h) in
  messages s1 = (h ++ [llm h])%list
  /\ (node s1 = TOOL_NODE <-> output_tool_calls (llm h) <> [])
  /\ (node s1 = END <-> output_tool_calls (llm h) = []).
Proof.
  cbn zeta. unfold graph_step. simpl. unfold add_messages.
  rewrite tools_router_snoc.
  split; [reflexivity|].
  destruct (output_tool_calls (llm h)); simpl.
  - split; split; intro H; congruence.
  - split; split; intro H; congruence.
Qed.

(** C9: a list-tables call is run with [{}]: its result does not depend
    on the arguments (nor the id) the model supplied. *)
Theorem list_tables_ignores_args (T : Tools) (args1 args2 : list (string * string))
    (id1 id2 : string) :
  run_tool T (mkToolCall "sql_db_list_tables" args1 id1)
  = run_tool T (mkToolCall "sql_db_list_tables" args2 id2).
Proof. reflexivity. Qed.

(** C10: the tool-result messages of [tool_node] are in the order of the
    tool calls of the assistant message, position by position. *)
Theorem tool_results_in_call_order (T : Tools) (h : list Message) :
  map tool_result_key (tool_node T h)
  = map (fun call => Some (tc_id call, tc_name call)) (last_tool_calls h).
Proof.
  unfold tool_node. rewrite map_map.
  apply map_ext. intro call. reflexivity.
Qed.

(** * Running the graph *)

Lemma graph_step_extends (llm : list Message -> Message) (T : Tools) (s : GState) :
  exists ext, messages (graph_step llm T s) = (messages s ++ ext)%list.
Proof.
  unfold graph_step, add_messages.
  destruct (node s); simpl; eexists; [reflexivity|reflexivity|].
  rewrite app_nil_r. reflexivity.
Qed.

(** The graph only appends: every history a run reaches extends the
    history it started from. *)
Theorem run_graph_append_only (n : nat) (llm : list Message -> Message) (T : Tools)
    (s : GState) :
  exists ext, messages (fst (run_graph n llm T s)) = (messages s ++ ext)%list.
Proof.
  revert s. induction n as [|n IH]; intro s; simpl.
  - destruct (node s); exists []; rewrite app_nil_r; reflexivity.
  - destruct (node s) eqn:E.
    + destruct (graph_step_extends llm T s) as [e1 H1].
      destruct (IH (graph_step llm T s)) as [e2 H2].
      exists (e1 ++ e2)%list. rewrite H2, H1, app_assoc. reflexivity.
    + destruct (graph_step_extends llm T s) as [e1 H1].
      destruct (IH (graph_step llm T s)) as [e2 H2].
      exists (e1 ++ e2)%list. rewrite H2, H1, app_assoc. reflexivity.
    + exists []. rewrite app_nil_r. reflexivity.
Qed.

Lemma run_graph_finished_gen (n : nat) (llm : list Message -> Message) (T : Tools)
    (s s' : GState) :
  node s <> END -> run_graph n llm T s = (s', true) ->
  node s' = END
  /\ exists h', last (messages s') (HumanMessage "") = llm h' /\ output_tool_calls (llm h') = [].
Proof.
  revert s. induction n as [|n IH]; intros s Hs Hrun; simpl in Hrun.
  - destruct (node s); [discriminate|discriminate|congruence].
  - assert (Hr : run_graph n llm T (graph_step llm T s) = (s', true))
      by (destruct (node s); [exact Hrun|exact Hrun|congruence]).
    destruct (node (graph_step llm T s)) eqn:E1.
    + apply (IH (graph_step llm T s)); [congruence|exact Hr].
    + apply (IH (graph_step llm T s)); [congruence|exact Hr].
    + destruct n; simpl in Hr; rewrite E1 in Hr; injection Hr as <-;
      (split; [exact E1|]);
      (unfold graph_step in E1 |- *; destruct (node s) eqn:Es; simpl in E1 |- *;
       [|discriminate|congruence]);
      (exists (messages s); unfold add_messages; rewrite last_last; split; [reflexivity|]);
      (rewrite tools_router_snoc in E1;
       destruct (output_tool_calls (llm (messages s))); [reflexivity|discriminate]).
Qed.

(** A run from [model] that reaches [END] stops on a model answer that
    requests no tool. *)
Theorem run_graph_finished (n : nat) (llm : list Message -> Message) (T : Tools)
    (h : list Message) (s' : GState)
    (Hrun : run_graph n llm T (mkGState MODEL h) = (s', true)) :
  node s' = END
  /\ exists h', last (messages s') (HumanMessage "") = llm h' /\ output_tool_calls (llm h') = [].
Proof. apply (run_graph_finished_gen n llm T (mkGState MODEL h)); [discriminate|exact Hrun]. Qed.

Lemma run_graph_finished_witness :
  run_graph 25 (fun _ : list Message => AIMessage "4" []) (mkTools (Returned "Employees") (fun _ : list (string * string) => Returned ""))
    (mkGState MODEL [HumanMessage "What is 2+2?"])
  = (mkGState END [HumanMessage "What is 2+2?"; AIMessage "4" []], true)
  /\ node (mkGState END [HumanMessage "What is 2+2?"; AIMessage "4" []]) = END
  /\ exists h', last (messages (mkGState END [HumanMessage "What is 2+2?"; AIMessage "4" []]))
                  (HumanMessage "") = (fun _ : list Message => AIMessage "4" []) h'
     /\ output_tool_calls ((fun _ : list Message => AIMessage "4" []) h') = [].
Proof.
  split; [reflexivity|].
  exact (run_graph_finished 25 (fun _ : list Message => AIMessage "4" [])
           (mkTools (Returned "Employees") (fun _ : list (string * string) => Returned ""))
           [HumanMessage "What is 2+2?"]
           (mkGState END [HumanMessage "What is 2+2?"; AIMessage "4" []]) eq_refl).
Defined.

Lemma run_graph_never_ends_gen (llm : list Message -> Message) (T : Tools)
    (Hllm : forall h, output_tool_calls (llm h) <> []) (n : nat) (s : GState) :
  node s <> END -> snd (run_graph n llm T s) = false.
Proof.
  revert s. induction n as [|n IH]; intros s Hs; simpl.
  - destruct (node s); [reflexivity|reflexivity|congruence].
  - assert (Hn : node (graph_step llm T s) <> END).
    { unfold graph_step. destruct (node s); simpl; [|discriminate|congruence].
      unfold add_messages. rewrite tools_router_snoc.
      specialize (Hllm (messages s)).
      destruct (output_tool_calls (llm (messages s))); [congruence|discriminate]. }
    destruct (node s); [apply IH; exact Hn|apply IH; exact Hn|congruence].
Qed.

(** A model that requests a tool on every call never lets the graph reach
    [END]: every run stops on the recursion limit. *)
Theorem run_graph_tools_forever (llm : list Message -> Message) (T : Tools)
    (Hllm : forall h, output_tool_calls (llm h) <> []) (n : nat) (h : list Message) :
  snd (run_graph n llm T (mkGState MODEL h)) = false.
Proof. apply run_graph_never_ends_gen; [exact Hllm|discriminate]. Qed.

Lemma run_graph_tools_forever_witness :
  (forall h, output_tool_calls
               ((fun _ : list Message => AIMessage "" [mkToolCall "sql_db_list_tables" [] "c1"]) h) <> [])
  /\ snd (run_graph 25 (fun _ : list Message => AIMessage "" [mkToolCall "sql_db_list_tables" [] "c1"])
           (mkTools (Returned "Employees") (fun _ : list (string * string) => Returned ""))
           (mkGState MODEL [HumanMessage "List all employees."])) = false.
Proof.
  assert (H : forall h, output_tool_calls
               ((fun _ : list Message => AIMessage "" [mkToolCall "sql_db_list_tables" [] "c1"]) h) <> [])
    by (intros h; discriminate).
  split; [exact H|].
  exact (run_graph_tools_forever _ (mkTools (Returned "Employees") (fun _ : list (string * string) => Returned ""))
           H 25 [HumanMessage "List all employees."]).
Defined.

(** * Turns and the checkpointer *)

Lemma memory_get_put_same (store : Store) (t : string) (h : list Message) :
  memory_get (memory_put store t h) t = h.
Proof. simpl. rewrite String.eqb_refl. reflexivity. Qed.






(** After a turn, the thread's stored history is its earlier stored
    history, then the turn's input messages, then what the run appended. *)
Theorem chat_turn_extends_thread (n : nat) (llm : list Message -> Message) (T : Tools)
    (store : Store) (message : string) (checkpoint_id : option string) (new_uuid : string) :
  let thread_id := fst (turn_input message checkpoint_id new_uuid) in
  exists ext,
    memory_get (fst (chat_turn n llm T store message checkpoint_id new_uuid)) thread_id
    = (memory_get store thread_id ++ snd (turn_input message checkpoint_id new_uuid) ++ ext)%list.
Proof.
  cbn zeta. unfold chat_turn.
  destruct (run_graph_append_only n llm T
              (mkGState MODEL (turn_history store message checkpoint_id new_uuid))) as [ext Hext].
  destruct (run_graph n llm T _) as [s fin]. simpl in Hext |- *.
  exists ext. rewrite String.eqb_refl, Hext.
  unfold turn_history, add_messages.
  destruct (turn_input message checkpoint_id new_uuid). simpl.
  rewrite app_assoc. reflexivity.
Qed.



(** * More on the projection *)

(** Every graph event gives at most one notification. *)
Theorem project_event_at_most_one (e : Event) : length (project_event e) <= 1.
Proof.
  destruct e as [c|out|name output|t]; simpl.
  - destruct (String.eqb c ""); simpl; lia.
  - destruct (filter _ _); simpl; lia.
  - destruct (String.eqb name "sql_db_query"); simpl; lia.
  - lia.
Qed.

Lemma string_append_assoc (a b c : string) : (a ++ b) ++ c = a ++ (b ++ c).
Proof. induction a as [|x a IH]; simpl; [reflexivity|rewrite IH; reflexivity]. Qed.

Lemma string_append_nil_r (a : string) : a ++ "" = a.
Proof. induction a as [|x a IH]; simpl; [reflexivity|rewrite IH; reflexivity]. Qed.

Lemma content_text_app (ns1 ns2 : list Notification) :
  content_text (ns1 ++ ns2)%list = content_text ns1 ++ content_text ns2.
Proof.
  induction ns1 as [|n ns1 IH]; [reflexivity|].
  destruct n; simpl; rewrite IH; try reflexivity.
  rewrite string_append_assoc. reflexivity.
Qed.

(** The ["content"] notifications of a turn, concatenated, are exactly
    the text the model streamed (up to where the stream stopped). *)
Theorem content_text_is_streamed_text (message : string) (checkpoint_id : option string)
    (new_uuid : string) (events : EventStream) :
  content_text (fst (generate_chat_responses message checkpoint_id new_uuid events))
  = chunk_text events.
Proof.
  unfold generate_chat_responses.
  assert (H : content_text (fst (stream_loop events)) = chunk_text events).
  { induction events as [| |e rest IH]; [reflexivity|reflexivity|].
    simpl. destruct (stream_loop rest) as [ns fin]. simpl in *.
    rewrite content_text_app, IH.
    destruct e as [c|out|name output|t]; simpl; try reflexivity.
    - destruct (String.eqb_spec c ""); [subst; reflexivity|].
      simpl. rewrite string_append_nil_r. reflexivity.
    - destruct (filter _ _); reflexivity.
    - destruct (String.eqb name "sql_db_query"); reflexivity. }
  destruct (stream_loop events) as [ns fin]. simpl in *.
  rewrite content_text_app, H. destruct checkpoint_id; reflexivity.
Qed.

Lemma query_results_app (ns1 ns2 : list Notification) :
  query_results (ns1 ++ ns2)%list = (query_results ns1 ++ query_results ns2)%list.
Proof.
  induction ns1 as [|n ns1 IH]; [reflexivity|].
  destruct n; simpl; rewrite IH; reflexivity.
Qed.

(** The ["sql_query_result"] notifications of a turn carry, in order, the
    outputs of the query tool's runs, one per run, and nothing else (the
    list-tables results are never sent). *)
Theorem query_results_are_query_outputs (message : string) (checkpoint_id : option string)
    (new_uuid : string) (events : EventStream) :
  query_results (fst (generate_chat_responses message checkpoint_id new_uuid events))
  = query_tool_outputs events.
Proof.
  unfold generate_chat_responses.
  assert (H : query_results (fst (stream_loop events)) = query_tool_outputs events).
  { induction events as [| |e rest IH]; [reflexivity|reflexivity|].
    simpl. destruct (stream_loop rest) as [ns fin]. simpl in *.
    rewrite query_results_app, IH.
    destruct e as [c|out|name output|t]; simpl; try reflexivity.
    - destruct (String.eqb c ""); reflexivity.
    - destruct (filter _ _); reflexivity.
    - destruct (String.eqb name "sql_db_query"); reflexivity. }
  destruct (stream_loop events) as [ns fin]. simpl in *.
  rewrite query_results_app, H. destruct checkpoint_id; reflexivity.
Qed.

(** * Database setup *)

Lemma max_id_snoc (rows : list Employee) (e : Employee) :
  max_id (rows ++ [e])%list = Nat.max (max_id rows) (emp_id e).
Proof.
  induction rows as [|r rows IH]; simpl; [lia|]. rewrite IH. lia.
Qed.

Lemma executemany_spec (data : list SampleRow) (rows : list Employee) (seq : nat)
    (Hseq : max_id rows <= seq) :
  let (rows', seq') := executemany rows seq data in
  map emp_id rows' = (map emp_id rows ++ List.seq (S seq) (length data))%list
  /\ map emp_name rows' = (map emp_name rows ++ map sample_name data)%list
  /\ seq' = seq + length data.
Proof.
  revert rows seq Hseq. induction data as [|v data IH]; intros rows seq Hseq; simpl.
  - rewrite !app_nil_r. split; [reflexivity|]. split; [reflexivity|lia].
  - destruct v as [[[[[name age] dept] salary] mobile] email]. simpl.
    replace (Nat.max seq (max_id rows)) with seq by lia.
    specialize (IH (rows ++ [mkEmployee (S seq) name age dept salary mobile email])%list (S seq)).
    destruct (executemany _ _ data) as [rows' seq'].
    destruct IH as [H1 [H2 H3]].
    + rewrite max_id_snoc. simpl. lia.
    + rewrite H1, H2, !map_app, <- !app_assoc. simpl.
      split; [reflexivity|]. split; [reflexivity|lia].
Qed.



(** On a database whose [Employees] table already has rows,
    [setup_database] changes nothing. *)
Theorem setup_database_keeps_existing (db : CompanyDB) (rs : list Employee)
    (Htable : employees_table db = Some rs) (Hne : rs <> []) :
  setup_database db = db.
Proof.
  unfold setup_database. rewrite Htable.
  destruct rs as [|r rs]; [congruence|]. simpl.
  destruct db as [t seq]. simpl in Htable. subst t. reflexivity.
Qed.

Lemma setup_database_keeps_existing_witness :
  employees_table (mkCompanyDB (Some [mkEmployee 7 "Gina" 33 "HR" 50000 "555-0107" "g@example.com"]) 7)
    = Some [mkEmployee 7 "Gina" 33 "HR" 50000 "555-0107" "g@example.com"]
  /\ [mkEmployee 7 "Gina" 33 "HR" 50000 "555-0107" "g@example.com"] <> []
  /\ setup_database (mkCompanyDB (Some [mkEmployee 7 "Gina" 33 "HR" 50000 "555-0107" "g@example.com"]) 7)
     = mkCompanyDB (Some [mkEmployee 7 "Gina" 33 "HR" 50000 "555-0107" "g@example.com"]) 7.
Proof.
  assert (H : [mkEmployee 7 "Gina" 33 "HR" 50000 "555-0107" "g@example.com"] <> [])
    by discriminate.
  split; [reflexivity|]. split; [exact H|].
  exact (setup_database_keeps_existing
           (mkCompanyDB (Some [mkEmployee 7 "Gina" 33 "HR" 50000 "555-0107" "g@example.com"]) 7)
           _ eq_refl H).
Defined.

Lemma setup_database_nonempty (db : CompanyDB) :
  exists rs, employees_table (setup_database db) = Some rs /\ rs <> [].
Proof.
  unfold setup_database.
  destruct (match employees_table db with None => [] | Some rs => rs end) as [|r rs] eqn:R.
  - pose proof (executemany_spec sample_data [] (sqlite_sequence db) ltac:(simpl; lia)) as H.
    destruct (executemany [] (sqlite_sequence db) sample_data) as [rows' seq'].
    destruct H as [H1 _].
    exists rows'. split; [reflexivity|].
    intro Hn. subst rows'. discriminate.
  - exists (r :: rs). split; [reflexivity|discriminate].
Qed.

(** Running [setup_database] again (each server start) changes nothing. *)
Theorem setup_database_idempotent (db : CompanyDB) :
  setup_database (setup_database db) = setup_database db.
Proof.
  destruct (setup_database_nonempty db) as [rs [Ht Hne]].
  exact (setup_database_keeps_existing (setup_database db) rs Ht Hne).
Qed.
